(** * The NumPy 2 compatibility header, [numpy/_core/include/numpy/npy_2_compat.h]

    The header is a preprocessor program followed by a handful of macros and
    [static inline] functions.  It is embedded here as Rocq functions:

    - the preprocessor part ([#ifndef]/[#error], [#if]/[#elif]/[#else]) is a
      function of the macros the including translation unit has defined;
    - every macro and inline function the header defines is a function of the
      branch that defined it, of the value of [PyArray_RUNTIME_VERSION] and of
      the declarations it borrows from NumPy's other headers;
    - the process state ([PyArray_API]) is threaded explicitly.

    Preprocessor arithmetic is done in [intmax_t]; all constants involved are
    small and non-negative, so [Z] is used without wrap-around. *)

From Stdlib Require Import ZArith List String Ascii Bool Lia.
Import ListNotations.
Local Open Scope Z_scope.

(* ------------------------------------------------------------------------- *)
(** * 1. Preprocessing the header *)
(* ------------------------------------------------------------------------- *)

(** What the including translation unit has [#define]d when the header is
    reached.  In an [#if], a name that is not defined counts as [0], which is
    how [NPY_ABI_VERSION] and [numpy_NPY_2_0_API_VERSION] are to be read when
    the unit does not define them; [NPY_FEATURE_VERSION] is also tested with
    [#ifndef], so its absence is kept apart. *)
Record build_config : Type := {
  NPY_FEATURE_VERSION : option Z;
  NPY_ABI_VERSION : Z;
  (** [NPY_2_0_API_VERSION] as the unit's NumPy headers define it.  It is only
      consulted when the header does not define the macro itself (lines 52-57). *)
  numpy_NPY_2_0_API_VERSION : Z;
  (** whether the macro [import_array1] is defined (line 71) *)
  import_array1_defined : bool
}.

(** The three groups of the conditional on lines 105-148. *)
Inductive gate_path : Type := new_only | legacy_only | dual_path.

Definition gate_path_eqb (p q : gate_path) : bool :=
  match p, q with
  | new_only, new_only | legacy_only, legacy_only | dual_path, dual_path => true
  | _, _ => false
  end.

(** Line 52: [#if NPY_ABI_VERSION < 0x02000000]. *)
Definition legacy_abi (abi : Z) : bool := abi <? 0x02000000.

(** Lines 52-57: under a 1.x ABI the header defines [NPY_2_0_API_VERSION]
    itself, as [0x00000012]; otherwise the unit's own definition stands. *)
Definition NPY_2_0_API_VERSION (cfg : build_config) : Z :=
  if legacy_abi (NPY_ABI_VERSION cfg) then 0x00000012
  else numpy_NPY_2_0_API_VERSION cfg.

(** Lines 105, 115, 129:
<<
    #if NPY_FEATURE_VERSION >= NPY_2_0_API_VERSION
    #elif NPY_ABI_VERSION < 0x02000000
    #else
>> *)
Definition version_gate (feature abi api_2_0 : Z) : gate_path :=
  if feature >=? api_2_0 then new_only
  else if abi <? 0x02000000 then legacy_only
  else dual_path.

(** The names each group defines (lines 106-114, 116-128, 130-147). *)
Definition group_defines (p : gate_path) : list string :=
  match p with
  | new_only =>
      ["NPY_DEFAULT_INT"; "NPY_RAVEL_AXIS"; "NPY_MAXARGS"; "PyDataType_FLAGS"]
  | legacy_only =>
      ["NPY_DEFAULT_INT"; "NPY_RAVEL_AXIS"; "NPY_MAXARGS"; "PyDataType_FLAGS";
       "NPY_NTYPES"; "PyArray_DescrProto"]
  | dual_path =>
      ["NPY_DEFAULT_INT"; "NPY_RAVEL_AXIS"; "NPY_MAXARGS"; "PyDataType_FLAGS"]
  end%string.

(** The four names whose meaning depends on the NumPy generation. *)
Definition version_sensitive : list string :=
  ["NPY_DEFAULT_INT"; "NPY_RAVEL_AXIS"; "NPY_MAXARGS"; "PyDataType_FLAGS"]%string.

Definition newline : string := String "010"%char EmptyString.

(** The text of the [#error] on lines 45-49. *)
Definition feature_version_error : string :=
  ("The NumPy 2 compat header requires `import_array()` for which "
   ++ "the `ndarraytypes.h` header include is not sufficient.  Please "
   ++ "include it after `numpy/ndarrayobject.h` or similar." ++ newline
   ++ "To simplify includsion, you may use `PyArray_ImportNumPy()` "
   ++ "which is defined in the compat header and is lightweight (can be).")%string.

(** What a successful inclusion leaves behind. *)
Record compat_layer : Type := {
  feature : Z;                 (* NPY_FEATURE_VERSION *)
  abi : Z;                     (* NPY_ABI_VERSION *)
  api_2_0 : Z;                 (* NPY_2_0_API_VERSION *)
  gate : gate_path;            (* the group of lines 105-148 that was compiled *)
  (** lines 58-63: [PyArray_RUNTIME_VERSION] is the macro [NPY_FEATURE_VERSION] *)
  runtime_version_is_feature : bool;
  (** lines 71-82: [PyArray_ImportNumPyAPI] is defined *)
  defines_PyArray_ImportNumPyAPI : bool
}.

(** One inclusion of the header (the text inside its include guard):
    either the translation fails with the [#error] text, or the layer is
    configured. *)
Definition include_npy_2_compat (cfg : build_config) : string + compat_layer :=
  match NPY_FEATURE_VERSION cfg with
  | None => inl feature_version_error
  | Some f =>
      inr {| feature := f;
             abi := NPY_ABI_VERSION cfg;
             api_2_0 := NPY_2_0_API_VERSION cfg;
             gate := version_gate f (NPY_ABI_VERSION cfg) (NPY_2_0_API_VERSION cfg);
             runtime_version_is_feature := legacy_abi (NPY_ABI_VERSION cfg);
             defines_PyArray_ImportNumPyAPI := import_array1_defined cfg |}
  end.

(** Whether the preprocessor compiles the text of a group of lines 105-148,
    each group taken on its own: the [#if] group when its condition holds,
    the [#elif] group when its condition holds and the [#if] condition does
    not, the [#else] group when neither holds. *)
Definition group_compiled (p : gate_path) (feature abi api_2_0 : Z) : bool :=
  match p with
  | new_only => feature >=? api_2_0
  | legacy_only => negb (feature >=? api_2_0) && (abi <? 0x02000000)
  | dual_path => negb (feature >=? api_2_0) && negb (abi <? 0x02000000)
  end.

(** The groups of lines 105-148 whose text is compiled and defines [name]. *)
Definition defining_groups (L : compat_layer) (name : string) : list gate_path :=
  filter (fun p => group_compiled p (feature L) (abi L) (api_2_0 L)
                   && existsb (String.eqb name) (group_defines p))
         [new_only; legacy_only; dual_path].

(* ------------------------------------------------------------------------- *)
(** * 2. Declarations borrowed from NumPy's other headers *)
(* ------------------------------------------------------------------------- *)

(** The two type numbers the header names.  Both are members of
    [enum NPY_TYPES] (or aliases of members); the header only chooses between
    the names, their numbers come from the headers included before it. *)
Inductive typenum_name : Type := NPY_INTP | NPY_LONG.

(** A scalar member of a C struct: where it sits and how it is read. *)
Record member : Type := {
  m_offset : nat;      (* byte offset inside the struct *)
  m_size : nat;        (* size in bytes *)
  m_signed : bool      (* signed or unsigned integer type *)
}.

(** Everything the header uses without defining it.  These are parameters of
    the development: the general statements hold for all their values. *)
Record numpy_headers : Type := {
  typenum : typenum_name -> Z;       (* the numbers of NPY_INTP and NPY_LONG *)
  NPY_MIN_INT : Z;
  PyArray_Descr_flags : member;      (* member [flags] of [PyArray_Descr] *)
  PyArray_DescrProto_flags : member  (* member [flags] of [PyArray_DescrProto] *)
}.

(** The object behind a [PyArray_Descr *] handle, as raw storage: the byte
    found at each offset from the handle. *)
Definition storage : Type := nat -> Z.

Definition byte_at (obj : storage) (i : nat) : Z := obj i mod 256.

(** Little-endian load of [n] bytes starting at offset [off]. *)
Fixpoint load_bytes (obj : storage) (off n : nat) : Z :=
  match n with
  | O => 0
  | S k => byte_at obj off + 256 * load_bytes obj (S off) k
  end.

(** [p->flags] for a pointer [p] whose struct type declares [flags] as [m]. *)
Definition load_member (m : member) (obj : storage) : Z :=
  let u := load_bytes obj (m_offset m) (m_size m) in
  let width := 8 * Z.of_nat (m_size m) in
  if m_signed m && (2 ^ (width - 1) <=? u) then u - 2 ^ width else u.

(** The cast [(unsigned char)e]. *)
Definition to_unsigned_char (v : Z) : Z := v mod 2 ^ 8.

(** Conversion to the return type [npy_uint64]. *)
Definition to_npy_uint64 (v : Z) : Z := v mod 2 ^ 64.

(** The object representation of a 32-bit [int]. *)
Definition int_bits (v : Z) : Z := v mod 2 ^ 32.

(* ------------------------------------------------------------------------- *)
(** * 3. The definitions of lines 105-148 *)
(* ------------------------------------------------------------------------- *)

(** In each definition [rt] is the value the expression
    [PyArray_RUNTIME_VERSION] has where the macro is expanded or the function
    is called.  Only the third group reads it. *)

(** Lines 106, 116, 130-131. *)
Definition NPY_DEFAULT_INT (L : compat_layer) (rt : Z) : typenum_name :=
  match gate L with
  | new_only => NPY_INTP
  | legacy_only => NPY_LONG
  | dual_path => if rt >=? api_2_0 L then NPY_INTP else NPY_LONG
  end.

(** Lines 107, 117, 132-133. *)
Definition NPY_RAVEL_AXIS (h : numpy_headers) (L : compat_layer) (rt : Z) : Z :=
  match gate L with
  | new_only => NPY_MIN_INT h
  | legacy_only => 32
  | dual_path => if rt >=? api_2_0 L then -1 else 32
  end.

(** Lines 108, 118, 134-135. *)
Definition NPY_MAXARGS (L : compat_layer) (rt : Z) : Z :=
  match gate L with
  | new_only => 64
  | legacy_only => 32
  | dual_path => if rt >=? api_2_0 L then 64 else 32
  end.

(** Lines 110-114, 120-124, 137-147.  In the first two groups the handle is
    read as the [PyArray_Descr] of the unit's headers.  In the third group
    it is read as [PyArray_Descr] when the runtime is 2.x and as
    [PyArray_DescrProto] otherwise. *)
Definition PyDataType_FLAGS (h : numpy_headers) (L : compat_layer) (rt : Z)
    (dtype : storage) : Z :=
  match gate L with
  | new_only =>
      to_npy_uint64 (to_unsigned_char (load_member (PyArray_Descr_flags h) dtype))
  | legacy_only =>
      to_npy_uint64 (to_unsigned_char (load_member (PyArray_Descr_flags h) dtype))
  | dual_path =>
      if rt >=? api_2_0 L then
        to_npy_uint64 (to_unsigned_char (load_member (PyArray_Descr_flags h) dtype))
      else
        to_npy_uint64
          (to_unsigned_char (load_member (PyArray_DescrProto_flags h) dtype))
  end.

(* ------------------------------------------------------------------------- *)
(** * 4. The aliases of lines 126-128 *)
(* ------------------------------------------------------------------------- *)

(** What a name can stand for once the unit's headers are read. *)
Inductive declaration : Type :=
| enum_constant (value : Z)
| struct_type (flags : member).

(** The declarations of the unit's NumPy headers, by name. *)
Definition declarations : Type := string -> option declaration.

(** Lines 127-128, present in the second group only:
<<
    #define NPY_NTYPES NPY_NTYPES_LEGACY
    #define PyArray_DescrProto PyArray_Descr
>> *)
Definition alias_macro (p : gate_path) (name : string) : option string :=
  match p with
  | legacy_only =>
      if String.eqb name "NPY_NTYPES" then Some "NPY_NTYPES_LEGACY"%string
      else if String.eqb name "PyArray_DescrProto" then Some "PyArray_Descr"%string
      else None
  | _ => None
  end.

(** What one of the two alias names, or a name the header does not define,
    means in source text placed after the header: an alias macro is replaced
    by its body, and the resulting name is looked up among the declarations.
    [None] is an undeclared identifier, which does not compile. *)
Definition resolve (p : gate_path) (decls : declarations) (name : string)
  : option declaration :=
  match alias_macro p name with
  | Some target => decls target
  | None => decls name
  end.

(* ------------------------------------------------------------------------- *)
(** * 5. The process: [PyArray_API] and [PyArray_RUNTIME_VERSION] *)
(* ------------------------------------------------------------------------- *)

(** The table a NumPy installation exports to its C clients.  Only the entry
    that tells the feature version of the running library is of interest. *)
Record api_table : Type := {
  host_feature_version : Z
}.

Record process : Type := {
  PyArray_API : option api_table;      (* [None] is the NULL pointer *)
  runtime_version_cache : option Z     (* [None]: not yet captured *)
}.

(** The macro [import_array1(ret)], which the header uses and does not
    define.  It runs the import and either lets control continue ([true]) or
    executes [return ret;] ([false]); in both cases it may change the
    process. *)
Definition import_macro : Type := process -> bool * process.

(** Lines 73-80:
<<
    if (NPY_UNLIKELY(PyArray_API == NULL)) {
        import_array1(-1);
    }
    return 0;
>> *)
Definition PyArray_ImportNumPyAPI (import_array1 : import_macro) (st : process)
  : Z * process :=
  match PyArray_API st with
  | None =>
      let (continues, st') := import_array1 st in
      if continues then (0, st') else (-1, st')
  | Some _ => (0, st)
  end.

(** Modelled from the spec: the runtime-version cache of a unit built against
    a 2.x ABI.  The header only uses the name [PyArray_RUNTIME_VERSION] there;
    its definition is in NumPy's API header, which is generated when NumPy
    is built.  Section 4.2 of the specification: on first access
    the value is read from the live API table and retained, on every later
    access the retained value is returned without reading again; an access
    before the import is undefined, which is [None] here. *)
Definition runtime_version_read (st : process) : option (Z * process) :=
  match runtime_version_cache st with
  | Some v => Some (v, st)
  | None =>
      match PyArray_API st with
      | Some table =>
          Some (host_feature_version table,
                {| PyArray_API := PyArray_API st;
                   runtime_version_cache := Some (host_feature_version table) |})
      | None => None
      end
  end.

(** The expression [PyArray_RUNTIME_VERSION].  Lines 58-63: under a 1.x ABI
    it is the macro [NPY_FEATURE_VERSION], a constant of the build. *)
Definition PyArray_RUNTIME_VERSION (L : compat_layer) (st : process)
  : option (Z * process) :=
  if runtime_version_is_feature L then Some (feature L, st)
  else runtime_version_read st.

(** Evaluating one of the macros or functions of lines 105-148 in a process:
    the third group evaluates [PyArray_RUNTIME_VERSION] first, the other two
    do not mention it (their result does not depend on the [0] passed). *)
Definition eval_accessor (L : compat_layer) (f : Z -> Z) (st : process)
  : option (Z * process) :=
  match gate L with
  | dual_path =>
      match PyArray_RUNTIME_VERSION L st with
      | Some (rt, st') => Some (f rt, st')
      | None => None
      end
  | _ => Some (f 0, st)
  end.

(** The uses a client can make of the layer. *)
Inductive layer_call : Type :=
| call_PyArray_RUNTIME_VERSION
| call_PyArray_ImportNumPyAPI
| call_NPY_DEFAULT_INT
| call_NPY_RAVEL_AXIS
| call_NPY_MAXARGS
| call_PyDataType_FLAGS (dtype : storage).

Definition is_version_read (c : layer_call) : bool :=
  match c with
  | call_PyArray_RUNTIME_VERSION => true
  | _ => false
  end.

Definition run_call (h : numpy_headers) (import_array1 : import_macro)
    (L : compat_layer) (c : layer_call) (st : process) : option (Z * process) :=
  match c with
  | call_PyArray_RUNTIME_VERSION => PyArray_RUNTIME_VERSION L st
  | call_PyArray_ImportNumPyAPI => Some (PyArray_ImportNumPyAPI import_array1 st)
  | call_NPY_DEFAULT_INT =>
      eval_accessor L (fun rt => typenum h (NPY_DEFAULT_INT L rt)) st
  | call_NPY_RAVEL_AXIS => eval_accessor L (NPY_RAVEL_AXIS h L) st
  | call_NPY_MAXARGS => eval_accessor L (NPY_MAXARGS L) st
  | call_PyDataType_FLAGS dtype =>
      eval_accessor L (fun rt => PyDataType_FLAGS h L rt dtype) st
  end.

(** A sequence of uses, in execution order, with the value each one yields. *)
Fixpoint run_calls (h : numpy_headers) (import_array1 : import_macro)
    (L : compat_layer) (cs : list layer_call) (st : process)
  : option (list (layer_call * Z) * process) :=
  match cs with
  | [] => Some ([], st)
  | c :: rest =>
      match run_call h import_array1 L c st with
      | None => None
      | Some (v, st') =>
          match run_calls h import_array1 L rest st' with
          | None => None
          | Some (trace, st'') => Some ((c, v) :: trace, st'')
          end
      end
  end.

(** The values the version reads of a trace returned, in order. *)
Definition version_reads (trace : list (layer_call * Z)) : list Z :=
  map snd (filter (fun cv => is_version_read (fst cv)) trace).

(** [n] calls of [PyArray_ImportNumPyAPI] in a row, with their results. *)
Fixpoint repeat_import (import_array1 : import_macro) (n : nat) (st : process)
  : list Z * process :=
  match n with
  | O => ([], st)
  | S k =>
      let (r, st') := PyArray_ImportNumPyAPI import_array1 st in
      let (rs, st'') := repeat_import import_array1 k st' in
      (r :: rs, st'')
  end.

(** The states in which the handle is set and a version read returns [v]. *)
Definition reads_as (L : compat_layer) (v : Z) (st : process) : Prop :=
  PyArray_API st <> None
  /\ exists st', PyArray_RUNTIME_VERSION L st = Some (v, st').

(* ------------------------------------------------------------------------- *)
(** * 6. Sample inputs *)
(* ------------------------------------------------------------------------- *)

(** The values below are those of common NumPy installations on a 64-bit
    Linux host.  They only serve to run the definitions on concrete inputs;
    every general statement quantifies over them. *)

(** A unit compiled with NumPy 1.x headers (ABI [0x01000009]), feature
    version 1.25.  Those headers do not define [NPY_2_0_API_VERSION]. *)
Definition numpy1_unit : build_config :=
  {| NPY_FEATURE_VERSION := Some 0x00000011;
     NPY_ABI_VERSION := 0x01000009;
     numpy_NPY_2_0_API_VERSION := 0;
     import_array1_defined := true |}.

(** A unit compiled with NumPy 2.x headers that targets the 1.25 feature set. *)
Definition numpy2_flexible_unit : build_config :=
  {| NPY_FEATURE_VERSION := Some 0x00000011;
     NPY_ABI_VERSION := 0x02000000;
     numpy_NPY_2_0_API_VERSION := 0x00000012;
     import_array1_defined := true |}.

(** A unit compiled with NumPy 2.x headers that targets the 2.0 feature set. *)
Definition numpy2_native_unit : build_config :=
  {| NPY_FEATURE_VERSION := Some 0x00000012;
     NPY_ABI_VERSION := 0x02000000;
     numpy_NPY_2_0_API_VERSION := 0x00000012;
     import_array1_defined := true |}.

(** A unit that reaches the header without [NPY_FEATURE_VERSION]. *)
Definition bare_unit : build_config :=
  {| NPY_FEATURE_VERSION := None;
     NPY_ABI_VERSION := 0x02000000;
     numpy_NPY_2_0_API_VERSION := 0x00000012;
     import_array1_defined := false |}.

(** [char flags] at offset 27: the 1.x descriptor. *)
Definition legacy_flags_member : member :=
  {| m_offset := 27; m_size := 1; m_signed := true |}.

(** [npy_uint64 flags] at offset 32: a 2.x descriptor. *)
Definition current_flags_member : member :=
  {| m_offset := 32; m_size := 8; m_signed := false |}.

Definition numpy1_lp64 : numpy_headers :=
  {| typenum := fun t => match t with NPY_INTP => 7 | NPY_LONG => 7 end;
     NPY_MIN_INT := -2147483648;
     PyArray_Descr_flags := legacy_flags_member;
     PyArray_DescrProto_flags := legacy_flags_member |}.

Definition numpy2_lp64 : numpy_headers :=
  {| typenum := fun t => match t with NPY_INTP => 7 | NPY_LONG => 7 end;
     NPY_MIN_INT := -2147483648;
     PyArray_Descr_flags := current_flags_member;
     PyArray_DescrProto_flags := legacy_flags_member |}.

(** Names declared by NumPy 1.x headers: [NPY_NTYPES] is a member of
    [enum NPY_TYPES], [PyArray_Descr] is the descriptor struct. *)
Definition numpy1_declarations : declarations :=
  fun name =>
    if String.eqb name "NPY_NTYPES" then Some (enum_constant 24)
    else if String.eqb name "PyArray_Descr" then Some (struct_type legacy_flags_member)
    else None.

(** Names declared by NumPy 2.x headers. *)
Definition numpy2_declarations : declarations :=
  fun name =>
    if String.eqb name "NPY_NTYPES_LEGACY" then Some (enum_constant 24)
    else if String.eqb name "PyArray_Descr" then Some (struct_type current_flags_member)
    else if String.eqb name "PyArray_DescrProto" then Some (struct_type legacy_flags_member)
    else None.

(** A descriptor object in the 1.x layout whose [flags] byte is [0x9b]. *)
Definition legacy_descr_object : storage :=
  fun i => if Nat.eqb i 27 then 0x9b else if Nat.eqb i 32 then 0x04 else 0.

Definition fresh_process : process :=
  {| PyArray_API := None; runtime_version_cache := None |}.

Definition numpy2_table : api_table := {| host_feature_version := 0x00000012 |}.

Definition numpy1_table : api_table := {| host_feature_version := 0x00000011 |}.

Definition imported_process : process :=
  {| PyArray_API := Some numpy2_table; runtime_version_cache := None |}.

(** An import that always succeeds and installs the table of a 2.x library. *)
Definition sample_import : import_macro :=
  fun st => (true, {| PyArray_API := Some numpy2_table;
                      runtime_version_cache := runtime_version_cache st |}).

Definition sample_calls : list layer_call :=
  [call_NPY_MAXARGS; call_PyArray_RUNTIME_VERSION; call_PyArray_ImportNumPyAPI;
   call_PyDataType_FLAGS legacy_descr_object; call_PyArray_RUNTIME_VERSION;
   call_NPY_RAVEL_AXIS; call_PyArray_RUNTIME_VERSION].

(* ------------------------------------------------------------------------- *)
(** * 7. The version gate *)
(* ------------------------------------------------------------------------- *)

Lemma version_gate_cases (f a t : Z) :
  (t <= f /\ version_gate f a t = new_only)
  \/ (f < t /\ a < 0x02000000 /\ version_gate f a t = legacy_only)
  \/ (f < t /\ 0x02000000 <= a /\ version_gate f a t = dual_path).
Proof.
  unfold version_gate.
  destruct (Z.geb_spec f t) as [Hge | Hlt].
  - left. split; [lia | reflexivity].
  - destruct (Z.ltb_spec a 0x02000000) as [Ha | Ha].
    + right; left. repeat split; lia.
    + right; right. repeat split; lia.
Qed.

Lemma compiled_groups_single (f a t : Z) :
  filter (fun p => group_compiled p f a t) [new_only; legacy_only; dual_path]
  = [version_gate f a t].
Proof.
  unfold version_gate.
  cbv beta iota delta [filter group_compiled].
  destruct (f >=? t), (a <? 0x02000000); reflexivity.
Qed.

Lemma defining_groups_single (L : compat_layer) (name : string) :
  gate L = version_gate (feature L) (abi L) (api_2_0 L) ->
  In name version_sensitive -> defining_groups L name = [gate L].
Proof.
  intros Hgate Hin. rewrite Hgate.
  unfold version_sensitive in Hin. simpl in Hin.
  unfold defining_groups, version_gate.
  cbv beta iota delta [filter group_compiled].
  destruct Hin as [<- | [<- | [<- | [<- | []]]]];
    destruct (feature L >=? api_2_0 L), (abi L <? 0x02000000); reflexivity.
Qed.

Lemma include_defined (cfg : build_config) (f : Z) :
  NPY_FEATURE_VERSION cfg = Some f ->
  exists L, include_npy_2_compat cfg = inr L
            /\ feature L = f
            /\ abi L = NPY_ABI_VERSION cfg
            /\ api_2_0 L = NPY_2_0_API_VERSION cfg
            /\ gate L = version_gate f (NPY_ABI_VERSION cfg) (NPY_2_0_API_VERSION cfg).
Proof.
  intros Hf. unfold include_npy_2_compat. rewrite Hf.
  eexists. split; [reflexivity | repeat split].
Qed.

(** C2: for every unit that defines a feature version, exactly one of the
    three groups of lines 105-148 is compiled: the new-only group when the
    feature version is at least [NPY_2_0_API_VERSION]; otherwise the
    legacy-only group when the declared ABI version is below the 2.0 boundary
    [0x02000000]; otherwise the dual-path group.  Each of the four
    version-sensitive names is defined by that group and by no other. *)
Theorem version_gate_selects_one_group (cfg : build_config) (f : Z) :
  NPY_FEATURE_VERSION cfg = Some f ->
  exists L,
    include_npy_2_compat cfg = inr L
    /\ (NPY_2_0_API_VERSION cfg <= f -> gate L = new_only)
    /\ (f < NPY_2_0_API_VERSION cfg -> NPY_ABI_VERSION cfg < 0x02000000 ->
        gate L = legacy_only)
    /\ (f < NPY_2_0_API_VERSION cfg -> 0x02000000 <= NPY_ABI_VERSION cfg ->
        gate L = dual_path)
    /\ filter (fun p => group_compiled p f (NPY_ABI_VERSION cfg)
                          (NPY_2_0_API_VERSION cfg))
          [new_only; legacy_only; dual_path] = [gate L]
    /\ (forall name, In name version_sensitive ->
        defining_groups L name = [gate L]).
Proof.
  intros Hf.
  destruct (include_defined cfg f Hf) as (L & Hinc & HfL & Habi & Hthr & Hgate).
  exists L. split; [exact Hinc |].
  assert (Hone : filter (fun p => group_compiled p f (NPY_ABI_VERSION cfg)
                                    (NPY_2_0_API_VERSION cfg))
                   [new_only; legacy_only; dual_path] = [gate L]).
  { rewrite Hgate. apply compiled_groups_single. }
  assert (Hdef : forall name, In name version_sensitive ->
                              defining_groups L name = [gate L]).
  { intros name. apply defining_groups_single.
    rewrite HfL, Habi, Hthr. exact Hgate. }
  destruct (version_gate_cases f (NPY_ABI_VERSION cfg) (NPY_2_0_API_VERSION cfg))
    as [[H1 H2] | [(H1 & H2 & H3) | (H1 & H2 & H3)]];
    rewrite <- Hgate in *;
    (split; [intros; lia || assumption |]);
    (split; [intros; lia || assumption |]);
    (split; [intros; lia || assumption |]);
    (split; [exact Hone | exact Hdef]).
Qed.

Lemma version_gate_selects_one_group_witness :
  NPY_FEATURE_VERSION numpy2_flexible_unit = Some 0x11
  /\ exists L,
    include_npy_2_compat numpy2_flexible_unit = inr L
    /\ (NPY_2_0_API_VERSION numpy2_flexible_unit <= 0x11 -> gate L = new_only)
    /\ (0x11 < NPY_2_0_API_VERSION numpy2_flexible_unit ->
        NPY_ABI_VERSION numpy2_flexible_unit < 0x02000000 ->
        gate L = legacy_only)
    /\ (0x11 < NPY_2_0_API_VERSION numpy2_flexible_unit ->
        0x02000000 <= NPY_ABI_VERSION numpy2_flexible_unit ->
        gate L = dual_path)
    /\ filter (fun p => group_compiled p 0x11
                          (NPY_ABI_VERSION numpy2_flexible_unit)
                          (NPY_2_0_API_VERSION numpy2_flexible_unit))
          [new_only; legacy_only; dual_path] = [gate L]
    /\ (forall name, In name version_sensitive ->
        defining_groups L name = [gate L]).
Proof.
  split; [reflexivity |].
  apply (version_gate_selects_one_group numpy2_flexible_unit 0x11).
  reflexivity.
Defined.

(** C5: a unit that reaches the header without [NPY_FEATURE_VERSION] does not
    translate: the inclusion ends in the [#error] with its corrective text,
    and no layer is configured, so no feature version is put in its place. *)
Theorem missing_feature_version_is_an_error (cfg : build_config) :
  NPY_FEATURE_VERSION cfg = None ->
  include_npy_2_compat cfg = inl feature_version_error
  /\ (forall L, include_npy_2_compat cfg <> inr L).
Proof.
  intros Hnone. unfold include_npy_2_compat. rewrite Hnone.
  split; [reflexivity | discriminate].
Qed.

Lemma missing_feature_version_is_an_error_witness :
  NPY_FEATURE_VERSION bare_unit = None
  /\ include_npy_2_compat bare_unit = inl feature_version_error
  /\ (forall L, include_npy_2_compat bare_unit <> inr L).
Proof.
  split; [reflexivity |].
  apply (missing_feature_version_is_an_error bare_unit). reflexivity.
Defined.

(** A configured layer carries the feature version the unit defined. *)
Lemma included_feature_version (cfg : build_config) (L : compat_layer) :
  include_npy_2_compat cfg = inr L -> NPY_FEATURE_VERSION cfg = Some (feature L).
Proof.
  unfold include_npy_2_compat.
  destruct (NPY_FEATURE_VERSION cfg) as [f |]; [| discriminate].
  intros H. injection H as <-. reflexivity.
Qed.

(** The dual-path group is only compiled against a 2.x ABI, where
    [PyArray_RUNTIME_VERSION] is not the build constant of lines 58-63. *)
Lemma dual_path_reads_runtime (cfg : build_config) (L : compat_layer) :
  include_npy_2_compat cfg = inr L ->
  gate L = dual_path ->
  runtime_version_is_feature L = false /\ feature L < api_2_0 L.
Proof.
  intros Hinc Hgate.
  pose proof (included_feature_version cfg L Hinc) as Hf.
  destruct (include_defined cfg (feature L) Hf) as (L' & Hinc' & _ & _ & Hthr & Hg).
  rewrite Hinc in Hinc'. injection Hinc' as <-.
  rewrite Hgate in Hg.
  destruct (version_gate_cases (feature L) (NPY_ABI_VERSION cfg)
              (NPY_2_0_API_VERSION cfg))
    as [[_ H] | [(_ & _ & H) | (Hlt & Habi & _)]]; try congruence.
  split; [| lia].
  unfold include_npy_2_compat in Hinc. rewrite Hf in Hinc.
  injection Hinc as <-. simpl. unfold legacy_abi. apply Z.ltb_ge. exact Habi.
Qed.

(* ------------------------------------------------------------------------- *)
(** * 8. The accessors *)
(* ------------------------------------------------------------------------- *)

Lemma to_unsigned_char_range (v : Z) : 0 <= to_unsigned_char v <= 255.
Proof.
  unfold to_unsigned_char.
  pose proof (Z.mod_pos_bound v (2 ^ 8) ltac:(lia)). lia.
Qed.

Lemma to_npy_uint64_small (v : Z) : 0 <= v <= 255 -> to_npy_uint64 v = v.
Proof.
  intros Hv. unfold to_npy_uint64. apply Z.mod_small. lia.
Qed.

Lemma flags_through (m : member) (dtype : storage) :
  to_npy_uint64 (to_unsigned_char (load_member m dtype))
  = load_member m dtype mod 256.
Proof.
  rewrite to_npy_uint64_small by apply to_unsigned_char_range.
  reflexivity.
Qed.

(** In the first two groups the definitions do not mention
    [PyArray_RUNTIME_VERSION]. *)
Lemma static_groups_ignore_runtime (h : numpy_headers) (L : compat_layer)
    (rt rt' : Z) (dtype : storage) :
  gate L <> dual_path ->
  NPY_DEFAULT_INT L rt = NPY_DEFAULT_INT L rt'
  /\ NPY_RAVEL_AXIS h L rt = NPY_RAVEL_AXIS h L rt'
  /\ NPY_MAXARGS L rt = NPY_MAXARGS L rt'
  /\ PyDataType_FLAGS h L rt dtype = PyDataType_FLAGS h L rt' dtype.
Proof.
  unfold NPY_DEFAULT_INT, NPY_RAVEL_AXIS, NPY_MAXARGS, PyDataType_FLAGS.
  destruct (gate L); intros Hg; try contradiction; repeat split.
Qed.

(** C9: in the dual-path group [NPY_DEFAULT_INT] is one of the two names
    [NPY_INTP] and [NPY_LONG]: it is [NPY_INTP] exactly when the runtime
    version is at least [NPY_2_0_API_VERSION], and [NPY_LONG] exactly when it
    is below; its number is the number the headers give the chosen name. *)
Theorem dual_default_int (h : numpy_headers) (L : compat_layer) (rt : Z) :
  gate L = dual_path ->
  (NPY_DEFAULT_INT L rt = NPY_INTP <-> api_2_0 L <= rt)
  /\ (NPY_DEFAULT_INT L rt = NPY_LONG <-> rt < api_2_0 L)
  /\ typenum h (NPY_DEFAULT_INT L rt)
     = (if rt >=? api_2_0 L then typenum h NPY_INTP else typenum h NPY_LONG).
Proof.
  intros Hg. unfold NPY_DEFAULT_INT. rewrite Hg.
  destruct (Z.geb_spec rt (api_2_0 L)) as [Hge | Hlt].
  - repeat split; intros; try lia; try reflexivity; discriminate.
  - repeat split; intros; try lia; try reflexivity; discriminate.
Qed.

(** Where the headers give the two names different numbers, the number
    returned tells the generation. *)
Lemma dual_default_int_number (h : numpy_headers) (L : compat_layer) (rt : Z) :
  gate L = dual_path ->
  typenum h NPY_INTP <> typenum h NPY_LONG ->
  (typenum h (NPY_DEFAULT_INT L rt) = typenum h NPY_INTP <-> api_2_0 L <= rt).
Proof.
  intros Hg Hne. unfold NPY_DEFAULT_INT. rewrite Hg.
  destruct (Z.geb_spec rt (api_2_0 L)) as [Hge | Hlt].
  - split; [intros _; exact Hge | reflexivity].
  - split; [intros Heq; congruence | lia].
Qed.

Lemma dual_default_int_witness :
  exists L,
    include_npy_2_compat numpy2_flexible_unit = inr L
    /\ gate L = dual_path
    /\ (NPY_DEFAULT_INT L 0x12 = NPY_INTP <-> api_2_0 L <= 0x12)
    /\ (NPY_DEFAULT_INT L 0x12 = NPY_LONG <-> 0x12 < api_2_0 L)
    /\ typenum numpy2_lp64 (NPY_DEFAULT_INT L 0x12)
       = (if 0x12 >=? api_2_0 L
          then typenum numpy2_lp64 NPY_INTP else typenum numpy2_lp64 NPY_LONG).
Proof.
  eexists. split; [reflexivity |]. split; [reflexivity |].
  apply (dual_default_int numpy2_lp64 _ 0x12). reflexivity.
Defined.

(** C3: with [NPY_2_0_API_VERSION = 0x00000012], [NPY_RAVEL_AXIS] in the
    dual-path group is [32] for every runtime version below the threshold and
    [-1] for every runtime version at or above it, and the two are different
    [int] bit patterns.  In the other two groups the runtime version is not
    consulted, so a single encoding is reachable there. *)
Theorem ravel_axis_sentinels_differ (h : numpy_headers) (L : compat_layer)
    (rt_legacy rt_current : Z) :
  api_2_0 L = 0x00000012 ->
  rt_legacy < 0x00000012 ->
  0x00000012 <= rt_current ->
  match gate L with
  | dual_path =>
      NPY_RAVEL_AXIS h L rt_legacy = 32
      /\ NPY_RAVEL_AXIS h L rt_current = -1
      /\ int_bits (NPY_RAVEL_AXIS h L rt_legacy)
         <> int_bits (NPY_RAVEL_AXIS h L rt_current)
  | _ => NPY_RAVEL_AXIS h L rt_legacy = NPY_RAVEL_AXIS h L rt_current
  end.
Proof.
  intros Hthr Hlegacy Hcurrent.
  unfold NPY_RAVEL_AXIS. rewrite Hthr.
  destruct (gate L); try reflexivity.
  destruct (Z.geb_spec rt_legacy 0x12) as [Habs | _]; [lia |].
  destruct (Z.geb_spec rt_current 0x12) as [_ | Habs]; [| lia].
  repeat split. vm_compute. discriminate.
Qed.

Lemma ravel_axis_sentinels_differ_witness :
  exists L,
    include_npy_2_compat numpy2_flexible_unit = inr L
    /\ gate L = dual_path
    /\ NPY_RAVEL_AXIS numpy2_lp64 L 0x11 = 32
    /\ NPY_RAVEL_AXIS numpy2_lp64 L 0x12 = -1
    /\ int_bits (NPY_RAVEL_AXIS numpy2_lp64 L 0x11)
       <> int_bits (NPY_RAVEL_AXIS numpy2_lp64 L 0x12).
Proof.
  eexists. split; [reflexivity |]. split; [reflexivity |].
  apply (ravel_axis_sentinels_differ numpy2_lp64
           {| feature := 0x11; abi := 0x02000000; api_2_0 := 0x12;
              gate := dual_path; runtime_version_is_feature := false;
              defines_PyArray_ImportNumPyAPI := true |} 0x11 0x12);
    [reflexivity | lia | lia].
Defined.

(** C10: in every group, and in both branches of the dual-path group,
    [PyDataType_FLAGS] is the [flags] member it reads reduced modulo [2^8] by
    the cast to [unsigned char]; widening to [npy_uint64] keeps that value,
    which therefore lies between 0 and 255. *)
Theorem PyDataType_FLAGS_is_a_byte (h : numpy_headers) (L : compat_layer)
    (rt : Z) (dtype : storage) :
  0 <= PyDataType_FLAGS h L rt dtype <= 255
  /\ exists m,
       In m [PyArray_Descr_flags h; PyArray_DescrProto_flags h]
       /\ PyDataType_FLAGS h L rt dtype = load_member m dtype mod 2 ^ 8.
Proof.
  assert (Hm : exists m,
             In m [PyArray_Descr_flags h; PyArray_DescrProto_flags h]
             /\ PyDataType_FLAGS h L rt dtype = load_member m dtype mod 2 ^ 8).
  { unfold PyDataType_FLAGS.
    destruct (gate L); [| | destruct (rt >=? api_2_0 L)];
      rewrite flags_through;
      (exists (PyArray_Descr_flags h); split; [simpl; auto | reflexivity])
      || (exists (PyArray_DescrProto_flags h); split; [simpl; auto | reflexivity]). }
  split; [| exact Hm].
  destruct Hm as (m & _ & ->).
  pose proof (Z.mod_pos_bound (load_member m dtype) (2 ^ 8) ltac:(lia)). lia.
Qed.

(** C4: a descriptor read through the legacy-only definition (with the 1.x
    headers [h1]) and through the dual-path definition resolved to the legacy
    generation (with the 2.x headers [h2], whose [PyArray_DescrProto] is the
    1.x descriptor) gives the same flags value, namely the 1.x [flags] member
    as an unsigned byte. *)
Theorem legacy_flags_cross_path (h1 h2 : numpy_headers) (L1 L2 : compat_layer)
    (rt1 rt2 : Z) (dtype : storage) :
  gate L1 = legacy_only ->
  gate L2 = dual_path ->
  rt2 < api_2_0 L2 ->
  PyArray_DescrProto_flags h2 = PyArray_Descr_flags h1 ->
  PyDataType_FLAGS h1 L1 rt1 dtype = PyDataType_FLAGS h2 L2 rt2 dtype
  /\ PyDataType_FLAGS h2 L2 rt2 dtype
     = load_member (PyArray_Descr_flags h1) dtype mod 2 ^ 8.
Proof.
  intros Hg1 Hg2 Hrt Hlayout.
  unfold PyDataType_FLAGS. rewrite Hg1, Hg2.
  destruct (Z.geb_spec rt2 (api_2_0 L2)) as [Habs | _]; [lia |].
  rewrite Hlayout, flags_through. split; reflexivity.
Qed.

Lemma legacy_flags_cross_path_witness :
  exists L1 L2,
    include_npy_2_compat numpy1_unit = inr L1
    /\ include_npy_2_compat numpy2_flexible_unit = inr L2
    /\ PyDataType_FLAGS numpy1_lp64 L1 (feature L1) legacy_descr_object
       = PyDataType_FLAGS numpy2_lp64 L2 0x11 legacy_descr_object
    /\ PyDataType_FLAGS numpy2_lp64 L2 0x11 legacy_descr_object
       = load_member (PyArray_Descr_flags numpy1_lp64) legacy_descr_object
         mod 2 ^ 8.
Proof.
  eexists. eexists. split; [reflexivity |]. split; [reflexivity |].
  apply (legacy_flags_cross_path numpy1_lp64 numpy2_lp64
           {| feature := 0x11; abi := 0x01000009; api_2_0 := 0x12;
              gate := legacy_only; runtime_version_is_feature := true;
              defines_PyArray_ImportNumPyAPI := true |}
           {| feature := 0x11; abi := 0x02000000; api_2_0 := 0x12;
              gate := dual_path; runtime_version_is_feature := false;
              defines_PyArray_ImportNumPyAPI := true |}
           0x11 0x11 legacy_descr_object);
    [reflexivity | reflexivity | simpl; lia | reflexivity].
Defined.

(** Choosing the other layout for the same object reads another offset. *)
Example wrong_layout_reads_other_field :
  load_member legacy_flags_member legacy_descr_object mod 2 ^ 8 = 0x9b
  /\ load_member current_flags_member legacy_descr_object mod 2 ^ 8 = 0x04.
Proof. split; reflexivity. Qed.

(** Against a legacy runtime the dual-path definitions give what the
    legacy-only group defines. *)
Lemma dual_path_legacy_runtime (h : numpy_headers) (Ld Ll : compat_layer)
    (rt rt' : Z) (dtype : storage) :
  gate Ld = dual_path -> gate Ll = legacy_only -> rt < api_2_0 Ld ->
  NPY_DEFAULT_INT Ld rt = NPY_DEFAULT_INT Ll rt'
  /\ NPY_RAVEL_AXIS h Ld rt = NPY_RAVEL_AXIS h Ll rt'
  /\ NPY_MAXARGS Ld rt = NPY_MAXARGS Ll rt'
  /\ PyDataType_FLAGS h Ld rt dtype
     = load_member (PyArray_DescrProto_flags h) dtype mod 2 ^ 8.
Proof.
  intros Hd Hl Hrt.
  unfold NPY_DEFAULT_INT, NPY_RAVEL_AXIS, NPY_MAXARGS, PyDataType_FLAGS.
  rewrite Hd, Hl.
  destruct (Z.geb_spec rt (api_2_0 Ld)) as [Habs | _]; [lia |].
  rewrite flags_through. repeat split.
Qed.

(** Against a current runtime three of the four dual-path definitions give
    what the new-only group defines. *)
Lemma dual_path_current_runtime (h : numpy_headers) (Ld Ln : compat_layer)
    (rt rt' : Z) (dtype : storage) :
  gate Ld = dual_path -> gate Ln = new_only -> api_2_0 Ld <= rt ->
  NPY_DEFAULT_INT Ld rt = NPY_DEFAULT_INT Ln rt'
  /\ NPY_MAXARGS Ld rt = NPY_MAXARGS Ln rt'
  /\ PyDataType_FLAGS h Ld rt dtype = PyDataType_FLAGS h Ln rt' dtype.
Proof.
  intros Hd Hn Hrt.
  unfold NPY_DEFAULT_INT, NPY_MAXARGS, PyDataType_FLAGS.
  rewrite Hd, Hn.
  destruct (Z.geb_spec rt (api_2_0 Ld)) as [_ | Habs]; [| lia].
  repeat split.
Qed.

(** The fourth does not: the dual-path [NPY_RAVEL_AXIS] is the literal [-1],
    the new-only one is [NPY_MIN_INT]. *)
Lemma dual_path_current_ravel_axis (h : numpy_headers) (Ld Ln : compat_layer)
    (rt rt' : Z) :
  gate Ld = dual_path -> gate Ln = new_only -> api_2_0 Ld <= rt ->
  NPY_RAVEL_AXIS h Ld rt = -1 /\ NPY_RAVEL_AXIS h Ln rt' = NPY_MIN_INT h.
Proof.
  intros Hd Hn Hrt. unfold NPY_RAVEL_AXIS. rewrite Hd, Hn.
  destruct (Z.geb_spec rt (api_2_0 Ld)) as [_ | Habs]; [| lia].
  split; reflexivity.
Qed.

(** C1, at the failing input: a dual-path unit running against a 2.0 library
    (runtime version [0x12]) gets [-1] from [NPY_RAVEL_AXIS], while a unit
    built on the new-only path gets [NPY_MIN_INT]. *)
Theorem dual_ravel_axis_departs_from_new_only :
  exists Ld Ln,
    include_npy_2_compat numpy2_flexible_unit = inr Ld
    /\ include_npy_2_compat numpy2_native_unit = inr Ln
    /\ gate Ld = dual_path
    /\ gate Ln = new_only
    /\ api_2_0 Ld <= 0x12
    /\ NPY_RAVEL_AXIS numpy2_lp64 Ld 0x12 = -1
    /\ NPY_RAVEL_AXIS numpy2_lp64 Ln 0x12 = NPY_MIN_INT numpy2_lp64
    /\ NPY_RAVEL_AXIS numpy2_lp64 Ld 0x12 <> NPY_RAVEL_AXIS numpy2_lp64 Ln 0x12.
Proof.
  eexists. eexists.
  split; [reflexivity |]. split; [reflexivity |].
  split; [reflexivity |]. split; [reflexivity |].
  split; [apply Z.leb_le; reflexivity |].
  split; [reflexivity |]. split; [reflexivity |].
  vm_compute. discriminate.
Qed.

(* ------------------------------------------------------------------------- *)
(** * 9. The aliases *)
(* ------------------------------------------------------------------------- *)

(** In the legacy-only group each alias stands for the declaration of the
    name in its body. *)
Lemma legacy_alias_resolution (decls : declarations) :
  resolve legacy_only decls "NPY_NTYPES" = decls "NPY_NTYPES_LEGACY"%string
  /\ resolve legacy_only decls "PyArray_DescrProto" = decls "PyArray_Descr"%string.
Proof. split; reflexivity. Qed.

(** C6, at the failing input: in a unit built with NumPy 1.x headers the
    legacy-only group is selected; there [PyArray_DescrProto] is the 1.x
    descriptor, but [NPY_NTYPES], which the 1.x headers declare as [24],
    becomes the undeclared name [NPY_NTYPES_LEGACY], and [NPY_NTYPES_LEGACY]
    itself stays undeclared.  With NumPy 2.x headers [NPY_NTYPES_LEGACY]
    is [24]. *)
Theorem legacy_NPY_NTYPES_alias_is_undeclared :
  exists L,
    include_npy_2_compat numpy1_unit = inr L
    /\ gate L = legacy_only
    /\ numpy1_declarations "NPY_NTYPES"%string = Some (enum_constant 24)
    /\ resolve (gate L) numpy1_declarations "NPY_NTYPES" = None
    /\ resolve (gate L) numpy1_declarations "NPY_NTYPES_LEGACY" = None
    /\ resolve new_only numpy2_declarations "NPY_NTYPES_LEGACY"
       = Some (enum_constant 24)
    /\ resolve (gate L) numpy1_declarations "PyArray_DescrProto"
       = Some (struct_type legacy_flags_member)
    /\ resolve new_only numpy2_declarations "PyArray_DescrProto"
       = Some (struct_type legacy_flags_member).
Proof.
  eexists. split; [reflexivity |]. repeat split.
Qed.

(* ------------------------------------------------------------------------- *)
(** * 10. Import helper and runtime version *)
(* ------------------------------------------------------------------------- *)

Section Process.

Variable h : numpy_headers.
Variable import_array1 : import_macro.
Variable L : compat_layer.

Lemma import_with_handle (st : process) :
  PyArray_API st <> None -> PyArray_ImportNumPyAPI import_array1 st = (0, st).
Proof.
  unfold PyArray_ImportNumPyAPI.
  destruct (PyArray_API st); [reflexivity | congruence].
Qed.

Lemma repeat_import_with_handle (n : nat) (st : process) :
  PyArray_API st <> None ->
  repeat_import import_array1 n st = (repeat 0 n, st).
Proof.
  intros Hset. induction n as [| n IH]; simpl.
  - reflexivity.
  - rewrite import_with_handle by exact Hset. rewrite IH. reflexivity.
Qed.

Lemma imported_reads (st : process) (table : api_table) :
  PyArray_API st = Some table -> exists v, reads_as L v st.
Proof.
  intros Hapi. unfold reads_as, PyArray_RUNTIME_VERSION, runtime_version_read.
  rewrite Hapi.
  destruct (runtime_version_is_feature L).
  - exists (feature L). split; [discriminate | eauto].
  - destruct (runtime_version_cache st) as [w |].
    + exists w. split; [discriminate | eauto].
    + exists (host_feature_version table). split; [discriminate | eauto].
Qed.

Lemma read_keeps (v : Z) (st : process) :
  reads_as L v st ->
  exists st', PyArray_RUNTIME_VERSION L st = Some (v, st') /\ reads_as L v st'.
Proof.
  unfold reads_as, PyArray_RUNTIME_VERSION, runtime_version_read.
  intros [Hapi [st1 Hread]].
  destruct (runtime_version_is_feature L).
  - injection Hread as <- <-. exists st. repeat split; eauto.
  - destruct (runtime_version_cache st) as [w |] eqn:Hcache.
    + injection Hread as <- <-. exists st. rewrite Hcache. repeat split; eauto.
    + destruct (PyArray_API st) as [table |] eqn:Htable; [| congruence].
      injection Hread as <- <-.
      eexists. split; [reflexivity |]. simpl.
      split; [discriminate | eauto].
Qed.

Lemma accessor_keeps (v : Z) (f : Z -> Z) (st : process) :
  reads_as L v st ->
  exists r st', eval_accessor L f st = Some (r, st') /\ reads_as L v st'.
Proof.
  intros Hinv. unfold eval_accessor.
  destruct (gate L); eauto.
  destruct (read_keeps v st Hinv) as (st' & -> & Hinv'). eauto.
Qed.

Ltac apply_accessor Hinv :=
  match goal with
  | |- context [eval_accessor ?L ?f ?st] =>
      let r := fresh "r" in
      let st' := fresh "st'" in
      let Heq := fresh "Heq" in
      let Hinv' := fresh "Hinv'" in
      destruct (accessor_keeps _ f st Hinv) as (r & st' & Heq & Hinv');
      rewrite Heq; exists r, st';
      split; [reflexivity | split; [exact Hinv' | discriminate]]
  end.

Lemma run_call_keeps (v : Z) (c : layer_call) (st : process) :
  reads_as L v st ->
  exists r st',
    run_call h import_array1 L c st = Some (r, st')
    /\ reads_as L v st'
    /\ (is_version_read c = true -> r = v).
Proof.
  intros Hinv.
  destruct c; simpl.
  - destruct (read_keeps v st Hinv) as (st' & -> & Hinv').
    exists v, st'. split; [reflexivity | split; [exact Hinv' | reflexivity]].
  - rewrite import_with_handle by apply Hinv.
    exists 0, st. split; [reflexivity | split; [exact Hinv | discriminate]].
  - apply_accessor Hinv.
  - apply_accessor Hinv.
  - apply_accessor Hinv.
  - apply_accessor Hinv.
Qed.

Lemma run_calls_keeps (v : Z) (cs : list layer_call) (st : process) :
  reads_as L v st ->
  exists trace st',
    run_calls h import_array1 L cs st = Some (trace, st')
    /\ reads_as L v st'
    /\ Forall (fun r => r = v) (version_reads trace).
Proof.
  revert st. induction cs as [| c cs IH]; intros st Hinv; simpl.
  - exists [], st. split; [reflexivity | split; [exact Hinv | constructor]].
  - destruct (run_call_keeps v c st Hinv) as (r & st1 & -> & Hinv1 & Hr).
    destruct (IH st1 Hinv1) as (trace & st2 & -> & Hinv2 & Hall).
    exists ((c, r) :: trace), st2. split; [reflexivity | split; [exact Hinv2 |]].
    unfold version_reads in *. simpl.
    destruct (is_version_read c) eqn:Hc; simpl.
    + constructor; [apply Hr; reflexivity | exact Hall].
    + exact Hall.
Qed.

(** C8: [PyArray_ImportNumPyAPI] runs the import only when [PyArray_API] is
    still NULL (its result is then the import's: [0] when control continues,
    [-1] when the macro returns); with the handle set it returns [0] and
    leaves the process as it is.  Provided a successful import sets the
    handle, every call after a call that returned [0] returns [0] and changes
    nothing. *)
Theorem PyArray_ImportNumPyAPI_idempotent (st : process) :
  (forall s s', import_array1 s = (true, s') -> PyArray_API s' <> None) ->
  (PyArray_API st <> None ->
   PyArray_ImportNumPyAPI import_array1 st = (0, st))
  /\ (PyArray_API st = None ->
      PyArray_ImportNumPyAPI import_array1 st
      = (if fst (import_array1 st) then 0 else -1, snd (import_array1 st)))
  /\ (forall st',
      PyArray_ImportNumPyAPI import_array1 st = (0, st') ->
      PyArray_API st' <> None
      /\ forall n, repeat_import import_array1 n st' = (repeat 0 n, st')).
Proof.
  intros Himport.
  split; [apply import_with_handle |].
  split.
  - intros Hnull. unfold PyArray_ImportNumPyAPI. rewrite Hnull.
    destruct (import_array1 st) as [[|] s]; reflexivity.
  - intros st' Hcall.
    assert (Hset : PyArray_API st' <> None).
    { unfold PyArray_ImportNumPyAPI in Hcall.
      destruct (PyArray_API st) as [table |] eqn:Hapi.
      - injection Hcall as <-. congruence.
      - destruct (import_array1 st) as [[|] s] eqn:Himp.
        + injection Hcall as <-. exact (Himport st s Himp).
        + discriminate. }
    split; [exact Hset |].
    intros n. apply repeat_import_with_handle. exact Hset.
Qed.

(** C7: once the handle is imported, any sequence of uses of the layer runs
    to completion, and every read of [PyArray_RUNTIME_VERSION] in it returns
    the value [v] that a read in the initial state returns, whatever other
    uses come before or between the reads. *)
Theorem runtime_version_reads_agree (table : api_table) (st : process)
    (cs : list layer_call) :
  PyArray_API st = Some table ->
  exists v st1 trace st',
    PyArray_RUNTIME_VERSION L st = Some (v, st1)
    /\ run_calls h import_array1 L cs st = Some (trace, st')
    /\ Forall (fun r => r = v) (version_reads trace)
    /\ (runtime_version_is_feature L = true -> v = feature L)
    /\ (runtime_version_is_feature L = false ->
        runtime_version_cache st = None -> v = host_feature_version table).
Proof.
  intros Hapi.
  destruct (imported_reads st table Hapi) as [v Hinv].
  destruct (run_calls_keeps v cs st Hinv) as (trace & st' & Hrun & _ & Hall).
  destruct Hinv as [_ [st1 Hread]].
  exists v, st1, trace, st'.
  repeat split; try assumption.
  - intros Hf. unfold PyArray_RUNTIME_VERSION in Hread. rewrite Hf in Hread.
    congruence.
  - intros Hf Hcache.
    unfold PyArray_RUNTIME_VERSION, runtime_version_read in Hread.
    rewrite Hf, Hcache, Hapi in Hread. congruence.
Qed.

End Process.

Lemma PyArray_ImportNumPyAPI_idempotent_witness :
  (forall s s', sample_import s = (true, s') -> PyArray_API s' <> None)
  /\ PyArray_ImportNumPyAPI sample_import fresh_process
     = (0, {| PyArray_API := Some numpy2_table; runtime_version_cache := None |})
  /\ forall n,
       repeat_import sample_import n
         {| PyArray_API := Some numpy2_table; runtime_version_cache := None |}
       = (repeat 0 n,
          {| PyArray_API := Some numpy2_table; runtime_version_cache := None |}).
Proof.
  assert (Himport : forall s s',
             sample_import s = (true, s') -> PyArray_API s' <> None).
  { intros s s' Heq. injection Heq as <-. discriminate. }
  split; [exact Himport |].
  split; [reflexivity |].
  apply (PyArray_ImportNumPyAPI_idempotent sample_import fresh_process Himport).
  reflexivity.
Defined.

Lemma runtime_version_reads_agree_witness :
  PyArray_API imported_process = Some numpy2_table
  /\ exists L v st1 trace st',
       include_npy_2_compat numpy2_flexible_unit = inr L
       /\ PyArray_RUNTIME_VERSION L imported_process = Some (v, st1)
       /\ run_calls numpy2_lp64 sample_import L sample_calls imported_process
          = Some (trace, st')
       /\ Forall (fun r => r = v) (version_reads trace).
Proof.
  split; [reflexivity |].
  eexists.
  destruct (runtime_version_reads_agree numpy2_lp64 sample_import
              {| feature := 0x11; abi := 0x02000000; api_2_0 := 0x12;
                 gate := dual_path; runtime_version_is_feature := false;
                 defines_PyArray_ImportNumPyAPI := true |}
              numpy2_table imported_process sample_calls eq_refl)
    as (v & st1 & trace & st' & Hread & Hrun & Hall & _).
  exists v, st1, trace, st'.
  split; [reflexivity |]. split; [exact Hread |]. split; [exact Hrun | exact Hall].
Defined.

(* ------------------------------------------------------------------------- *)
(** * 11. Further properties of the gate *)
(* ------------------------------------------------------------------------- *)

Lemma include_inversion (cfg : build_config) (L : compat_layer) :
  include_npy_2_compat cfg = inr L ->
  NPY_FEATURE_VERSION cfg = Some (feature L)
  /\ abi L = NPY_ABI_VERSION cfg
  /\ api_2_0 L = NPY_2_0_API_VERSION cfg
  /\ gate L = version_gate (feature L) (NPY_ABI_VERSION cfg) (api_2_0 L)
  /\ runtime_version_is_feature L = legacy_abi (NPY_ABI_VERSION cfg).
Proof.
  unfold include_npy_2_compat.
  destruct (NPY_FEATURE_VERSION cfg) as [f |]; [| discriminate].
  intros H. injection H as <-. simpl. repeat split.
Qed.

(** X1: the ABI version decides which runtime-free group is available.  A
    unit built against a 1.x ABI always gets the threshold [0x12], whatever
    its headers define, and never the dual-path group; a unit built against a
    2.x ABI takes the threshold from its headers and never gets the
    legacy-only group.  In both cases the new-only group is selected exactly
    when the feature version reaches the threshold. *)
Theorem gate_respects_abi (cfg : build_config) (L : compat_layer) :
  include_npy_2_compat cfg = inr L ->
  (NPY_ABI_VERSION cfg < 0x02000000 ->
   api_2_0 L = 0x00000012 /\ gate L <> dual_path)
  /\ (0x02000000 <= NPY_ABI_VERSION cfg ->
      api_2_0 L = numpy_NPY_2_0_API_VERSION cfg /\ gate L <> legacy_only)
  /\ (gate L = new_only <-> api_2_0 L <= feature L).
Proof.
  intros Hinc.
  destruct (include_inversion cfg L Hinc) as (_ & _ & Hthr & Hgate & _).
  unfold NPY_2_0_API_VERSION, legacy_abi in Hthr.
  destruct (version_gate_cases (feature L) (NPY_ABI_VERSION cfg) (api_2_0 L))
    as [[H1 H2] | [(H1 & H2 & H3) | (H1 & H2 & H3)]];
    rewrite <- Hgate in *; rewrite ?H2, ?H3.
  - split; [| split].
    + intros Ha. destruct (Z.ltb_spec (NPY_ABI_VERSION cfg) 0x02000000);
        [split; [exact Hthr | discriminate] | lia].
    + intros Ha. destruct (Z.ltb_spec (NPY_ABI_VERSION cfg) 0x02000000);
        [lia | split; [exact Hthr | discriminate]].
    + split; [intros _; exact H1 | reflexivity].
  - split; [| split].
    + intros _. destruct (Z.ltb_spec (NPY_ABI_VERSION cfg) 0x02000000);
        [split; [exact Hthr | discriminate] | lia].
    + intros Ha. lia.
    + split; [discriminate | lia].
  - split; [| split].
    + intros Ha. lia.
    + intros _. destruct (Z.ltb_spec (NPY_ABI_VERSION cfg) 0x02000000);
        [lia | split; [exact Hthr | discriminate]].
    + split; [discriminate | lia].
Qed.

Lemma gate_respects_abi_witness :
  exists L,
    include_npy_2_compat numpy1_unit = inr L
    /\ (NPY_ABI_VERSION numpy1_unit < 0x02000000 ->
        api_2_0 L = 0x00000012 /\ gate L <> dual_path)
    /\ (0x02000000 <= NPY_ABI_VERSION numpy1_unit ->
        api_2_0 L = numpy_NPY_2_0_API_VERSION numpy1_unit
        /\ gate L <> legacy_only)
    /\ (gate L = new_only <-> api_2_0 L <= feature L).
Proof.
  eexists. split; [reflexivity |].
  apply (gate_respects_abi numpy1_unit). reflexivity.
Defined.

(** X2: in a unit built against a 1.x ABI, [PyArray_RUNTIME_VERSION] is the
    feature version of the build: it can be evaluated in any process, the
    handle imported or not, and leaves the process as it is.  What the three
    macros of the selected group give is what the runtime-dispatched formulas
    would give for that version, with [NPY_MIN_INT] as the 2.x sentinel. *)
Theorem legacy_abi_runtime_version (h : numpy_headers) (cfg : build_config)
    (L : compat_layer) (st : process) (rt : Z) :
  include_npy_2_compat cfg = inr L ->
  NPY_ABI_VERSION cfg < 0x02000000 ->
  PyArray_RUNTIME_VERSION L st = Some (feature L, st)
  /\ NPY_DEFAULT_INT L rt
     = (if feature L >=? 0x00000012 then NPY_INTP else NPY_LONG)
  /\ NPY_MAXARGS L rt = (if feature L >=? 0x00000012 then 64 else 32)
  /\ NPY_RAVEL_AXIS h L rt
     = (if feature L >=? 0x00000012 then NPY_MIN_INT h else 32).
Proof.
  intros Hinc Habi.
  destruct (include_inversion cfg L Hinc) as (_ & _ & Hthr & Hgate & Hrv).
  unfold NPY_2_0_API_VERSION in Hthr.
  unfold legacy_abi in Hthr, Hrv.
  destruct (Z.ltb_spec (NPY_ABI_VERSION cfg) 0x02000000) as [_ | Habs]; [| lia].
  split.
  - unfold PyArray_RUNTIME_VERSION. rewrite Hrv. reflexivity.
  - unfold NPY_DEFAULT_INT, NPY_MAXARGS, NPY_RAVEL_AXIS.
    rewrite Hgate, Hthr. unfold version_gate.
    destruct (feature L >=? 18); [repeat split |].
    destruct (Z.ltb_spec (NPY_ABI_VERSION cfg) 0x02000000) as [_ | Habs];
      [repeat split | lia].
Qed.

Lemma legacy_abi_runtime_version_witness :
  exists L,
    include_npy_2_compat numpy1_unit = inr L
    /\ NPY_ABI_VERSION numpy1_unit < 0x02000000
    /\ PyArray_RUNTIME_VERSION L fresh_process = Some (feature L, fresh_process)
    /\ NPY_DEFAULT_INT L 0
       = (if feature L >=? 0x00000012 then NPY_INTP else NPY_LONG)
    /\ NPY_MAXARGS L 0 = (if feature L >=? 0x00000012 then 64 else 32)
    /\ NPY_RAVEL_AXIS numpy1_lp64 L 0
       = (if feature L >=? 0x00000012 then NPY_MIN_INT numpy1_lp64 else 32).
Proof.
  eexists. split; [reflexivity |]. split; [reflexivity |].
  apply (legacy_abi_runtime_version numpy1_lp64 numpy1_unit _ fresh_process 0);
    reflexivity.
Defined.

(** X3: the numbers [NPY_MAXARGS] and [NPY_RAVEL_AXIS] vary with the runtime
    version exactly in the units whose feature version is below the threshold
    and whose ABI version is at least [0x02000000]; everywhere else they are
    constants of the build. *)
Theorem runtime_matters_only_in_dual_path (h : numpy_headers)
    (cfg : build_config) (L : compat_layer) :
  include_npy_2_compat cfg = inr L ->
  ((exists rt rt', NPY_MAXARGS L rt <> NPY_MAXARGS L rt')
   <-> feature L < api_2_0 L /\ 0x02000000 <= NPY_ABI_VERSION cfg)
  /\ ((exists rt rt', NPY_RAVEL_AXIS h L rt <> NPY_RAVEL_AXIS h L rt')
      <-> feature L < api_2_0 L /\ 0x02000000 <= NPY_ABI_VERSION cfg).
Proof.
  intros Hinc.
  destruct (include_inversion cfg L Hinc) as (_ & _ & _ & Hgate & _).
  unfold NPY_MAXARGS, NPY_RAVEL_AXIS.
  destruct (version_gate_cases (feature L) (NPY_ABI_VERSION cfg) (api_2_0 L))
    as [[H1 H2] | [(H1 & H2 & H3) | (H1 & H2 & H3)]];
    rewrite <- Hgate in *; rewrite ?H2, ?H3.
  - split; (split; [intros (rt & rt' & Hne); congruence | lia]).
  - split; (split; [intros (rt & rt' & Hne); congruence | lia]).
  - split; (split; [intros _; lia |]); intros _;
      exists (api_2_0 L), (api_2_0 L - 1);
      destruct (Z.geb_spec (api_2_0 L) (api_2_0 L)); try lia;
      destruct (Z.geb_spec (api_2_0 L - 1) (api_2_0 L)); try lia;
      discriminate.
Qed.

Lemma runtime_matters_only_in_dual_path_witness :
  exists L,
    include_npy_2_compat numpy2_flexible_unit = inr L
    /\ ((exists rt rt', NPY_MAXARGS L rt <> NPY_MAXARGS L rt')
        <-> feature L < api_2_0 L
            /\ 0x02000000 <= NPY_ABI_VERSION numpy2_flexible_unit)
    /\ ((exists rt rt',
           NPY_RAVEL_AXIS numpy2_lp64 L rt <> NPY_RAVEL_AXIS numpy2_lp64 L rt')
        <-> feature L < api_2_0 L
            /\ 0x02000000 <= NPY_ABI_VERSION numpy2_flexible_unit).
Proof.
  eexists. split; [reflexivity |].
  apply (runtime_matters_only_in_dual_path numpy2_lp64 numpy2_flexible_unit).
  reflexivity.
Defined.

(* ------------------------------------------------------------------------- *)
(** * 12. Further properties of the accessors *)
(* ------------------------------------------------------------------------- *)

(** X4: in every group and for every runtime version the value of
    [NPY_MAXARGS] tells what the other accessors give.  With [32] the default
    integer has the number of [NPY_LONG] and the axis sentinel is [32]; with
    [64] the default integer has the number of [NPY_INTP], the sentinel is
    [-1] or [NPY_MIN_INT], and the descriptor is read as [PyArray_Descr]. *)
Theorem accessors_agree_on_generation (h : numpy_headers) (L : compat_layer)
    (rt : Z) (dtype : storage) :
  (NPY_MAXARGS L rt = 32 \/ NPY_MAXARGS L rt = 64)
  /\ (NPY_MAXARGS L rt = 32 ->
      typenum h (NPY_DEFAULT_INT L rt) = typenum h NPY_LONG
      /\ NPY_RAVEL_AXIS h L rt = 32)
  /\ (NPY_MAXARGS L rt = 64 ->
      typenum h (NPY_DEFAULT_INT L rt) = typenum h NPY_INTP
      /\ (NPY_RAVEL_AXIS h L rt = -1 \/ NPY_RAVEL_AXIS h L rt = NPY_MIN_INT h)
      /\ PyDataType_FLAGS h L rt dtype
         = load_member (PyArray_Descr_flags h) dtype mod 2 ^ 8).
Proof.
  unfold NPY_DEFAULT_INT, NPY_MAXARGS, NPY_RAVEL_AXIS, PyDataType_FLAGS.
  destruct (gate L); [| | destruct (rt >=? api_2_0 L)];
    rewrite ?flags_through;
    (split; [auto |]);
    (split; [intros; try discriminate; split; reflexivity |]);
    intros; try discriminate; repeat split; auto.
Qed.

(** X5: [NPY_MAXARGS] is never below [32] nor above [64], and a later
    runtime version never lowers it: a buffer of 64 entries is enough on every
    path. *)
Theorem NPY_MAXARGS_bounds (L : compat_layer) (rt rt' : Z) :
  rt <= rt' ->
  32 <= NPY_MAXARGS L rt /\ NPY_MAXARGS L rt <= NPY_MAXARGS L rt'
  /\ NPY_MAXARGS L rt' <= 64.
Proof.
  intros Hle. unfold NPY_MAXARGS.
  destruct (gate L); try lia.
  destruct (Z.geb_spec rt (api_2_0 L)), (Z.geb_spec rt' (api_2_0 L)); lia.
Qed.

Lemma NPY_MAXARGS_bounds_witness :
  exists L,
    include_npy_2_compat numpy2_flexible_unit = inr L
    /\ 32 <= NPY_MAXARGS L 0x11
    /\ NPY_MAXARGS L 0x11 <= NPY_MAXARGS L 0x12
    /\ NPY_MAXARGS L 0x12 <= 64.
Proof.
  eexists. split; [reflexivity |].
  apply (NPY_MAXARGS_bounds _ 0x11 0x12). lia.
Defined.

Lemma byte_at_range (obj : storage) (i : nat) : 0 <= byte_at obj i < 256.
Proof. unfold byte_at. apply Z.mod_pos_bound. lia. Qed.

Lemma load_bytes_succ (obj : storage) (off k : nat) :
  load_bytes obj off (S k) = byte_at obj off + 256 * load_bytes obj (S off) k.
Proof. reflexivity. Qed.

Lemma load_member_low_byte (m : member) (obj : storage) :
  (1 <= m_size m)%nat ->
  load_member m obj mod 2 ^ 8 = byte_at obj (m_offset m).
Proof.
  intros Hsize. unfold load_member.
  destruct (m_size m) as [| k]; [lia |].
  assert (Hpow : 2 ^ (8 * Z.of_nat (S k)) = 2 ^ (8 * Z.of_nat k) * 256).
  { rewrite Nat2Z.inj_succ.
    replace (8 * Z.succ (Z.of_nat k)) with (8 * Z.of_nat k + 8) by lia.
    rewrite Z.pow_add_r by lia. reflexivity. }
  rewrite load_bytes_succ. change (2 ^ 8) with 256.
  pose proof (byte_at_range obj (m_offset m)) as Hb.
  set (b := byte_at obj (m_offset m)) in *.
  set (rest := load_bytes obj (S (m_offset m)) k).
  cbv zeta.
  destruct (m_signed m && (2 ^ (8 * Z.of_nat (S k) - 1) <=? b + 256 * rest)).
  - rewrite Hpow.
    replace (b + 256 * rest - 2 ^ (8 * Z.of_nat k) * 256)
      with (b + (rest - 2 ^ (8 * Z.of_nat k)) * 256) by ring.
    rewrite Z_mod_plus_full. apply Z.mod_small. exact Hb.
  - replace (b + 256 * rest) with (b + rest * 256) by ring.
    rewrite Z_mod_plus_full. apply Z.mod_small. exact Hb.
Qed.

(** X6: whatever the width and the signedness of the [flags] member,
    [PyDataType_FLAGS] is the byte stored at the member's offset: a negative
    [char] is not sign-extended into the 64-bit result, and of a wider member
    only the lowest byte is kept.  The offset is that of
    [PyArray_DescrProto] in the dual-path group below the threshold, and that
    of [PyArray_Descr] everywhere else. *)
Theorem PyDataType_FLAGS_is_low_byte (h : numpy_headers) (L : compat_layer)
    (rt : Z) (dtype : storage) :
  (1 <= m_size (PyArray_Descr_flags h))%nat ->
  (1 <= m_size (PyArray_DescrProto_flags h))%nat ->
  (gate L = dual_path -> rt < api_2_0 L ->
   PyDataType_FLAGS h L rt dtype
   = byte_at dtype (m_offset (PyArray_DescrProto_flags h)))
  /\ (gate L <> dual_path \/ api_2_0 L <= rt ->
      PyDataType_FLAGS h L rt dtype
      = byte_at dtype (m_offset (PyArray_Descr_flags h))).
Proof.
  intros Hd Hp. unfold PyDataType_FLAGS.
  split.
  - intros Hg Hrt. rewrite Hg.
    destruct (Z.geb_spec rt (api_2_0 L)); [lia |].
    rewrite flags_through. apply load_member_low_byte. exact Hp.
  - intros Hcase.
    destruct (gate L); [| | destruct (Z.geb_spec rt (api_2_0 L))];
      try (rewrite flags_through; apply load_member_low_byte; exact Hd).
    destruct Hcase as [Hne | Hge]; [congruence | lia].
Qed.

Lemma PyDataType_FLAGS_is_low_byte_witness :
  (1 <= m_size (PyArray_Descr_flags numpy2_lp64))%nat
  /\ (1 <= m_size (PyArray_DescrProto_flags numpy2_lp64))%nat
  /\ exists L,
       include_npy_2_compat numpy2_flexible_unit = inr L
       /\ (gate L = dual_path -> 0x11 < api_2_0 L ->
           PyDataType_FLAGS numpy2_lp64 L 0x11 legacy_descr_object
           = byte_at legacy_descr_object
               (m_offset (PyArray_DescrProto_flags numpy2_lp64)))
       /\ (gate L <> dual_path \/ api_2_0 L <= 0x11 ->
           PyDataType_FLAGS numpy2_lp64 L 0x11 legacy_descr_object
           = byte_at legacy_descr_object
               (m_offset (PyArray_Descr_flags numpy2_lp64))).
Proof.
  split; [simpl; lia |]. split; [simpl; lia |].
  eexists. split; [reflexivity |].
  apply (PyDataType_FLAGS_is_low_byte numpy2_lp64 _ 0x11 legacy_descr_object);
    simpl; lia.
Defined.

(* ------------------------------------------------------------------------- *)
(** * 13. Further properties of the import helper *)
(* ------------------------------------------------------------------------- *)

(** X8: provided a successful import sets the handle, the results of [n]
    calls of [PyArray_ImportNumPyAPI] in a row are some failures [-1]
    followed only by successes [0]: once a call has returned [0] no later
    call fails, and a call only fails while the handle is still NULL. *)
Theorem import_results_settle (import_array1 : import_macro) (n : nat)
    (st : process) :
  (forall s s', import_array1 s = (true, s') -> PyArray_API s' <> None) ->
  exists k,
    (k <= n)%nat
    /\ fst (repeat_import import_array1 n st)
       = repeat (-1) k ++ repeat 0 (n - k)
    /\ (PyArray_API st <> None -> k = 0%nat).
Proof.
  intros Himport. revert st.
  induction n as [| n IH]; intros st.
  - exists 0%nat. split; [lia | split; [reflexivity | reflexivity]].
  - destruct (PyArray_API st) as [table |] eqn:Hapi.
    + exists 0%nat.
      rewrite repeat_import_with_handle by congruence.
      split; [lia | split; [reflexivity | reflexivity]].
    + simpl. unfold PyArray_ImportNumPyAPI. rewrite Hapi.
      destruct (import_array1 st) as [[|] s] eqn:Himp.
      * exists 0%nat.
        rewrite repeat_import_with_handle by exact (Himport st s Himp).
        split; [lia | split; [reflexivity | reflexivity]].
      * destruct (IH s) as (k & Hk & Hres & _).
        exists (S k).
        destruct (repeat_import import_array1 n s) as [rs s'].
        simpl in *. rewrite Hres.
        split; [lia | split; [reflexivity | congruence]].
Qed.

Lemma import_results_settle_witness :
  (forall s s', sample_import s = (true, s') -> PyArray_API s' <> None)
  /\ exists k,
       (k <= 3)%nat
       /\ fst (repeat_import sample_import 3 fresh_process)
          = repeat (-1) k ++ repeat 0 (3 - k)
       /\ (PyArray_API fresh_process <> None -> k = 0%nat).
Proof.
  assert (Himport : forall s s',
             sample_import s = (true, s') -> PyArray_API s' <> None).
  { intros s s' Heq. injection Heq as <-. discriminate. }
  split; [exact Himport |].
  apply (import_results_settle sample_import 3 fresh_process Himport).
Defined.
